(** * Verification of the dictation core of [dictate.py] (SoupaWhisper)

    Shallow embedding of the configuration parsers, the paste-key machinery,
    the output routing and the [Dictation] recording/transcription state
    machine of [src/dictate.py].  Python strings are modelled as Rocq
    [string]s over ASCII; [str.strip], [str.lower] and [str.split] are written
    out for that character set. *)

From Stdlib Require Import Strings.String Strings.Ascii Lists.List Arith Lia Bool.
From Stdlib Require Import Numbers.DecimalString.
Import ListNotations.
Open Scope string_scope.
Open Scope list_scope.
Open Scope nat_scope.
Set Warnings "-abstract-large-number".

(* ------------------------------------------------------------------ *)
(** ** Python string primitives (ASCII fragment) *)

Module Py.

(** Characters for which [str.isspace] holds: \t \n \x0b \x0c \r,
    \x1c .. \x1f and the space. *)
Definition is_space (c : ascii) : bool :=
  let n := nat_of_ascii c in
  ((9 <=? n) && (n <=? 13)) || ((28 <=? n) && (n <=? 32)).

Fixpoint lstrip (s : string) : string :=
  match s with
  | EmptyString => EmptyString
  | String c r => if is_space c then lstrip r else s
  end.

Definition rev_str (s : string) : string :=
  string_of_list_ascii (rev (list_ascii_of_string s)).

Definition rstrip (s : string) : string := rev_str (lstrip (rev_str s)).

(** [str.strip()] *)
Definition strip (s : string) : string := rstrip (lstrip s).

Definition lower_char (c : ascii) : ascii :=
  let n := nat_of_ascii c in
  if (65 <=? n) && (n <=? 90) then ascii_of_nat (n + 32) else c.

(** [str.lower()] *)
Fixpoint lower (s : string) : string :=
  match s with
  | EmptyString => EmptyString
  | String c r => String (lower_char c) (lower r)
  end.

(** [str.split(sep)] for a one-character separator: empty pieces are kept
    and the result is never the empty list. *)
Fixpoint split (sep : ascii) (s : string) : list string :=
  match s with
  | EmptyString => [EmptyString]
  | String c r =>
      let parts := split sep r in
      if Ascii.eqb c sep then EmptyString :: parts
      else match parts with
           | p :: ps => String c p :: ps
           | [] => [String c EmptyString]
           end
  end.

(** [sep.join(parts)] *)
Definition join (sep : string) (parts : list string) : string :=
  String.concat sep parts.

(** [x in xs] for a list of strings *)
Definition mem (x : string) (xs : list string) : bool :=
  existsb (String.eqb x) xs.

(** [s[:n]] *)
Definition prefix (n : nat) (s : string) : string := substring 0 n s.

(** [f"{n}"] for a non-negative integer *)
Definition show_nat (n : nat) : string :=
  NilEmpty.string_of_uint (Nat.to_uint n).

End Py.

(* ------------------------------------------------------------------ *)
(** ** [parse_language_config] (lines 176-184) *)

(** Returns [(language, allowed_languages)]; [None] is Python's [None]. *)
Definition parse_language_config (lang_str : string)
  : option string * option (list string) :=
  let lang_str := Py.lower (Py.strip lang_str) in
  if String.eqb lang_str "auto" then (None, None)
  else
    let parts := map Py.strip (Py.split "," lang_str) in
    match parts with
    | [p] => (Some p, None)
    | _ => (None, Some parts)
    end.

(* ------------------------------------------------------------------ *)
(** ** Paste keys (lines 195-268) *)

(** [PASTE_KEYCODE_MAP], a dict with string keys, as an association list in
    the source's order. *)
Definition PASTE_KEYCODE_MAP : list (string * nat) :=
  [("ctrl", 29); ("control", 29);
   ("alt", 56);
   ("shift", 42);
   ("super", 125); ("meta", 125); ("cmd", 125); ("command", 125);
   ("a", 30); ("b", 31); ("c", 46); ("d", 32); ("e", 18); ("f", 33); ("g", 34); ("h", 35);
   ("i", 23); ("j", 36); ("k", 37); ("l", 38); ("m", 50); ("n", 49); ("o", 24); ("p", 25);
   ("q", 16); ("r", 19); ("s", 31); ("t", 20); ("u", 22); ("v", 47); ("w", 17); ("x", 45);
   ("y", 21); ("z", 44)].

Fixpoint dict_get (k : string) (d : list (string * nat)) : option nat :=
  match d with
  | [] => None
  | (k', v) :: d' => if String.eqb k k' then Some v else dict_get k d'
  end.

(** The [keycodes] list built by the loop of [parse_paste_keys], before the
    Ctrl+V fallback (unknown parts are skipped with a warning). *)
Definition paste_keycodes (paste_keys_str : string) : list nat :=
  let parts := map (fun p => Py.lower (Py.strip p)) (Py.split "+" paste_keys_str) in
  flat_map (fun part => match dict_get part PASTE_KEYCODE_MAP with
                        | Some kc => [kc]
                        | None => []
                        end) parts.

(** [parse_paste_keys]: ydotool arguments, presses then releases in reverse. *)
Definition parse_paste_keys (paste_keys_str : string) : list string :=
  let keycodes := paste_keycodes paste_keys_str in
  let keycodes := match keycodes with [] => [29; 47] | _ => keycodes end in
  map (fun kc => (Py.show_nat kc ++ ":1")%string) keycodes
  ++ map (fun kc => (Py.show_nat kc ++ ":0")%string) (rev keycodes).

Definition PASTE_TERMINAL_ARGS : list string := parse_paste_keys "ctrl+shift+v".

Definition TERMINAL_APPS : list string :=
  ["org.kde.konsole"; "konsole";
   "alacritty"; "org.alacritty.Alacritty";
   "kitty"; "org.kde.yakuake";
   "gnome-terminal"; "gnome-terminal-server";
   "xfce4-terminal"; "terminator"; "tilix";
   "foot"; "wezterm"].

(** [get_paste_keys_for_window]; [paste_ydotool_args] is the module-level
    [PASTE_YDOTOOL_ARGS].  [if window_class:] is false for [None] and [""]. *)
Definition get_paste_keys_for_window (paste_ydotool_args : list string)
    (window_class : option string) : list string :=
  match window_class with
  | Some wc =>
      if negb (String.eqb wc "") && Py.mem (Py.lower wc) (map Py.lower TERMINAL_APPS)
      then PASTE_TERMINAL_ARGS
      else paste_ydotool_args
  | None => paste_ydotool_args
  end.

(* ------------------------------------------------------------------ *)
(** ** The [Dictation] object: world, configuration and effects *)

(** Observable effects of the orchestrator, in the order they happen. *)
Inductive effect : Type :=
  | TrayUpdate (state : string)                   (* [_update_tray] *)
  | TempCreated (name : string)                   (* [NamedTemporaryFile] *)
  | Spawn (argv : list string) (pid : nat)        (* [subprocess.Popen] *)
  | Terminate (pid : nat)                         (* [terminate(); wait()] *)
  | Notification (title message icon : string) (timeout : nat)
  | Clipboard (argv : list string) (input : string) (* [Popen(..).communicate] *)
  | Run (argv : list string)                      (* [subprocess.run] *)
  | Sleep (ms : nat)                              (* [time.sleep] *)
  | Transcribe (file : string) (beam_size : nat) (language : option string)
  | Unlink (name : string).                       (* [os.unlink] *)

(** The background model load: [model_loaded] not yet set, set with
    [self.model] assigned, or set with [self.model_error = str(e)]. *)
Inductive gate : Type :=
  | Loading
  | Loaded
  | LoadFailed (error : string).

(** Module-level constants read by the methods. *)
Record config : Type := mkConfig {
  HOTKEY_CODE : nat;
  HOTKEY_NAME : string;
  AUTO_TYPE : bool;
  NOTIFICATIONS : bool;
  AUDIO_DEVICE : string;
  IS_WAYLAND : bool;
  HAS_TRAY : bool;
  LANGUAGE : option string;
  ALLOWED_LANGUAGES : option (list string);
  PASTE_YDOTOOL_ARGS : list string
}.

(** The module-level constants for the default configuration of
    [load_config] ([key = f12], [auto_type = true], [notifications = true],
    [audio_device = default], [paste_keys = ctrl+v], [language = auto]);
    [KEY_F12] is evdev code 88. *)
Definition default_config (is_wayland has_tray : bool) : config :=
  let lang := parse_language_config "auto" in
  mkConfig 88 "F12" true true "default" is_wayland has_tray
    (fst lang) (snd lang) (parse_paste_keys "ctrl+v").

(** The attributes of a [Dictation] instance that the methods read and
    write, together with the file system (the existing temporary files) and
    the trace of effects.  [next_id] supplies fresh temporary-file names and
    process ids. *)
Record world : Type := mkWorld {
  recording : bool;
  record_process : option nat;
  temp_file : option string;
  model_gate : gate;
  files : list string;
  trace : list effect;
  next_id : nat
}.

Definition set_recording (b : bool) (w : world) : world :=
  mkWorld b (record_process w) (temp_file w) (model_gate w) (files w) (trace w) (next_id w).
Definition set_record_process (p : option nat) (w : world) : world :=
  mkWorld (recording w) p (temp_file w) (model_gate w) (files w) (trace w) (next_id w).
Definition set_temp_file (t : option string) (w : world) : world :=
  mkWorld (recording w) (record_process w) t (model_gate w) (files w) (trace w) (next_id w).
Definition set_model_gate (g : gate) (w : world) : world :=
  mkWorld (recording w) (record_process w) (temp_file w) g (files w) (trace w) (next_id w).
Definition set_files (fs : list string) (w : world) : world :=
  mkWorld (recording w) (record_process w) (temp_file w) (model_gate w) fs (trace w) (next_id w).
Definition set_trace (t : list effect) (w : world) : world :=
  mkWorld (recording w) (record_process w) (temp_file w) (model_gate w) (files w) t (next_id w).
Definition set_next_id (n : nat) (w : world) : world :=
  mkWorld (recording w) (record_process w) (temp_file w) (model_gate w) (files w) (trace w) n.

(** [__init__]: not recording, no process, no temp file, model loading. *)
Definition init_world : world := mkWorld false None None Loading [] [] 0.

(** Python results: a value or a raised exception (its [str(e)]). *)
Inductive res (A : Type) : Type :=
  | Ok (a : A)
  | Exc (e : string).
Arguments Ok {A} a.
Arguments Exc {A} e.

(** Answers of the outside world: whether an executable can be spawned,
    how the background model load ends ([None] for success, [Some (str e)]
    for an exception), what [model.transcribe(file, beam_size, language)]
    returns (segment texts and [info.language]), and what the KWin window
    query answers.  [popen_error] is the exception [subprocess.Popen] of
    arecord raises although the executable exists ([fork] failing with
    EAGAIN raises "BlockingIOError", with ENOMEM "OSError"), and
    [tempfile_error] the one [tempfile.NamedTemporaryFile] raises (an
    unwritable or full temporary directory). *)
Record oracle : Type := MkOracle {
  program_ok : string -> bool;
  load_outcome : option string;
  model_transcribe : string -> nat -> option string -> res (list string * string);
  active_window_class : option string;
  popen_error : option string;
  tempfile_error : option string
}.

(** An outside world where arecord forks and the temporary file is created. *)
Definition mkOracle (ok : string -> bool) (load : option string)
    (tr : string -> nat -> option string -> res (list string * string))
    (window : option string) : oracle :=
  MkOracle ok load tr window None None.

Record env : Type := mkEnv { cfg : config; ora : oracle }.

(** State and exception monad: the world persists past a raise, as the
    attributes of a Python object do. *)
Definition M (A : Type) : Type := env -> world -> res A * world.

Definition ret {A} (a : A) : M A := fun _ w => (Ok a, w).
Definition bind {A B} (m : M A) (k : A -> M B) : M B :=
  fun e w => match m e w with
             | (Ok a, w') => k a e w'
             | (Exc x, w') => (Exc x, w')
             end.
Definition raise {A} (msg : string) : M A := fun _ w => (Exc msg, w).
Definition lift {A} (r : res A) : M A := fun _ w => (r, w).
Definition get : M world := fun _ w => (Ok w, w).
Definition put (w' : world) : M unit := fun _ _ => (Ok tt, w').
Definition modify (f : world -> world) : M unit := fun _ w => (Ok tt, f w).
Definition asks {A} (f : env -> A) : M A := fun e w => (Ok (f e), w).
Definition emit (ef : effect) : M unit :=
  modify (fun w => set_trace (trace w ++ [ef]) w).

Notation "x <- c1 ;; c2" := (bind c1 (fun x => c2))
  (at level 61, c1 at next level, right associativity).
Notation "e1 ;; e2" := (bind e1 (fun _ => e2))
  (at level 61, right associativity).

(** [try: body except Exception as e: handler(str(e)) finally: fin] *)
Definition try_except_finally (body : M unit) (handler : string -> M unit)
    (fin : M unit) : M unit :=
  fun e w =>
    let '(r1, w1) := body e w in
    let '(r2, w2) := match r1 with
                     | Ok _ => (Ok tt, w1)
                     | Exc x => handler x e w1
                     end in
    match fin e w2 with
    | (Ok _, w3) => (r2, w3)
    | (Exc x, w3) => (Exc x, w3)
    end.

(** Python truthiness of [Optional[str]]. *)
Definition truthy_str (o : option string) : bool :=
  match o with
  | Some s => negb (String.eqb s "")
  | None => false
  end.

(* ------------------------------------------------------------------ *)
(** ** External calls *)

(** [_update_tray] (lines 391-403): nothing without an indicator. *)
Definition update_tray (state : string) : M unit :=
  c <- asks cfg;;
  if HAS_TRAY c then emit (TrayUpdate state) else ret tt.

(** [notify] (lines 423-463), best effort: suppressed when notifications are
    disabled.  The model assumes that the gdbus call or its [notify-send]
    fallback can be run: the fallback's own failure (both tools missing),
    which the source does not catch, is not modelled. *)
Definition notify (title message icon : string) (timeout : nat) : M unit :=
  c <- asks cfg;;
  if NOTIFICATIONS c then emit (Notification title message icon timeout) else ret tt.

(** [subprocess.Popen(argv)] of arecord: raises [FileNotFoundError] when the
    executable is missing, and [popen_error] when [fork] fails. *)
Definition popen (argv : list string) : M nat :=
  o <- asks ora;;
  if program_ok o (hd "" argv) then
    match popen_error o with
    | Some x => raise x
    | None =>
        w <- get;;
        let pid := next_id w in
        put (set_next_id (S pid) w);;
        emit (Spawn argv pid);;
        ret pid
    end
  else raise "FileNotFoundError".

(** [subprocess.Popen(argv, stdin=PIPE).communicate(input=...)] *)
Definition popen_communicate (argv : list string) (input : string) : M unit :=
  o <- asks ora;;
  if program_ok o (hd "" argv) then emit (Clipboard argv input)
  else raise "FileNotFoundError".

(** [subprocess.run(argv)]: a non-zero exit status is not an error. *)
Definition subprocess_run (argv : list string) : M unit :=
  o <- asks ora;;
  if program_ok o (hd "" argv) then emit (Run argv)
  else raise "FileNotFoundError".

(** [tempfile.NamedTemporaryFile(suffix=".wav", delete=False)], closed. *)
Definition make_temp_file : M string :=
  o <- asks ora;;
  match tempfile_error o with
  | Some x => raise x
  | None =>
      w <- get;;
      let name := ("/tmp/tmp" ++ Py.show_nat (next_id w) ++ ".wav")%string in
      put (set_next_id (S (next_id w)) (set_files (name :: files w) w));;
      emit (TempCreated name);;
      ret name
  end.

(** [get_active_window_class] (lines 240-258); no method calls it. *)
Definition get_active_window_class : M (option string) :=
  o <- asks ora;;
  ret (active_window_class o).

(** [self.model_error] of a gate. *)
Definition gate_error (g : gate) : option string :=
  match g with LoadFailed e => Some e | _ => None end.

Definition model_error : M (option string) :=
  w <- get;;
  ret (gate_error (model_gate w)).

(** End of the [_load_model] thread (lines 405-421); [model_loaded.wait()]
    returns once this has happened. *)
Definition load_model_done : M unit :=
  w <- get;;
  match model_gate w with
  | Loading =>
      o <- asks ora;;
      match load_outcome o with
      | None => put (set_model_gate Loaded w);; update_tray "ready"
      | Some err => put (set_model_gate (LoadFailed err) w)
      end
  | _ => ret tt
  end.

(** [self.model.transcribe(file, beam_size=.., vad_filter=True, language=..)];
    [self.model] is [None] unless the load succeeded. *)
Definition transcribe (name : string) (beam_size : nat) (language : option string)
  : M (list string * string) :=
  w <- get;;
  match model_gate w with
  | Loaded =>
      emit (Transcribe name beam_size language);;
      o <- asks ora;;
      lift (model_transcribe o name beam_size language)
  | _ => raise "'NoneType' object has no attribute 'transcribe'"
  end.

(* ------------------------------------------------------------------ *)
(** ** [start_recording] (lines 465-497) *)

Definition arecord_cmd (audio_device name : string) : list string :=
  ["arecord"]
  ++ (if String.eqb audio_device "default" then [] else ["-D"; audio_device])
  ++ ["-f"; "S16_LE"; "-r"; "16000"; "-c"; "1"; "-t"; "wav"; name].

Definition start_recording : M unit :=
  w <- get;;
  if recording w then ret tt else
  err <- model_error;;
  if truthy_str err then ret tt else
  modify (set_recording true);;
  update_tray "recording";;
  name <- make_temp_file;;
  modify (set_temp_file (Some name));;
  c <- asks cfg;;
  pid <- popen (arecord_cmd (AUDIO_DEVICE c) name);;
  modify (set_record_process (Some pid));;
  notify "Recording..." ("Release " ++ HOTKEY_NAME c ++ " when done")%string
    "audio-input-microphone" 30000.

(* ------------------------------------------------------------------ *)
(** ** [stop_recording] (lines 499-598) *)

(** [use_language] (lines 537-549): a first detection pass with beam 1 only
    when an allowed list is configured and no language is forced. *)
Definition determine_language (name : string) : M (option string) :=
  c <- asks cfg;;
  match ALLOWED_LANGUAGES c with
  | Some ((first :: _) as allowed) =>
      if truthy_str (LANGUAGE c) then ret (LANGUAGE c) else
      r <- transcribe name 1 None;;
      let detected := snd r in
      if Py.mem detected allowed then ret (Some detected) else ret (Some first)
  | _ => ret (LANGUAGE c)
  end.

(** [" ".join(segment.text.strip() for segment in segments)] (line 558) *)
Definition result_text (segments : list string) : string :=
  Py.join " " (map Py.strip segments).

(** Lines 536-558: language selection and the real pass, beam 5. *)
Definition transcribe_text (name : string) : M string :=
  use_language <- determine_language name;;
  r <- transcribe name 5 use_language;;
  ret (result_text (fst r)).

(** Lines 562-588: the output step for the transcribed [text]. *)
Definition deliver (text : string) : M unit :=
  c <- asks cfg;;
  if negb (String.eqb text "") then
    popen_communicate
      (if IS_WAYLAND c then ["wl-copy"] else ["xclip"; "-selection"; "clipboard"]) text;;
    (if AUTO_TYPE c then
       emit (Sleep 150);;
       (if IS_WAYLAND c then subprocess_run (["ydotool"; "key"] ++ PASTE_YDOTOOL_ARGS c)
        else subprocess_run ["xdotool"; "type"; "--clearmodifiers"; text])
     else ret tt);;
    notify "Copied!"
      (String.append (Py.prefix 100 text)
         (if 100 <? String.length text then "..." else ""))
      "emblem-ok-symbolic" 3000
  else
    notify "No speech detected" "Try speaking louder" "dialog-warning" 2000.

(** [self.temp_file.name]: an [AttributeError] when there is no temp file. *)
Definition temp_name : M string :=
  w <- get;;
  match temp_file w with
  | Some n => ret n
  | None => raise "'NoneType' object has no attribute 'name'"
  end.

(** [os.path.getsize] *)
Definition getsize (name : string) : M unit :=
  w <- get;;
  if Py.mem name (files w) then ret tt else raise "FileNotFoundError".

(** The body of the [try] (lines 527-588). *)
Definition transcribe_and_deliver : M unit :=
  name <- temp_name;;
  getsize name;;
  text <- transcribe_text name;;
  deliver text.

(** The [finally] clause (lines 593-598). *)
Definition cleanup : M unit :=
  w <- get;;
  (match temp_file w with
   | Some n =>
       if Py.mem n (files w) then
         put (set_files (remove string_dec n (files w)) w);;
         emit (Unlink n)
       else ret tt
   | None => ret tt
   end);;
  update_tray "ready".

Definition stop_recording : M unit :=
  w <- get;;
  if negb (recording w) then ret tt else
  put (set_recording false w);;
  (match record_process w with
   | Some pid => emit (Terminate pid);; modify (set_record_process None)
   | None => ret tt
   end);;
  update_tray "processing";;
  load_model_done;;
  err <- model_error;;
  if truthy_str err then
    notify "Error" "Model failed to load" "dialog-error" 3000
  else
    try_except_finally transcribe_and_deliver
      (fun e => notify "Error" (Py.prefix 50 e) "dialog-error" 3000)
      cleanup.

(* ------------------------------------------------------------------ *)
(** ** The event loop of [run] (lines 629-644) *)

(** Input events of the devices, and the end of the model-load thread,
    which runs concurrently with the loop. *)
Inductive event : Type :=
  | KeyEvent (type code value : nat)
  | ModelLoadFinished.

Definition EV_KEY : nat := 1.

Definition handle_event (ev : event) : M unit :=
  match ev with
  | KeyEvent ty code value =>
      c <- asks cfg;;
      if (ty =? EV_KEY) && (code =? HOTKEY_CODE c) then
        if value =? 1 then start_recording
        else if value =? 0 then stop_recording
        else ret tt
      else ret tt
  | ModelLoadFinished => load_model_done
  end.

(** The [try: ... except BlockingIOError: pass] around the handling of
    the events of one [device.read()] (lines 634-644). *)
Definition except_blocking_io (m : M unit) : M unit :=
  fun e w =>
    match m e w with
    | (Exc x, w') => if String.eqb x "BlockingIOError" then (Ok tt, w') else (Exc x, w')
    | r => r
    end.

(** The loop, each event coming from its own [device.read()]: a
    [BlockingIOError] of a handler is swallowed and polling goes on; any
    other exception of a handler leaves [run]. *)
Fixpoint run_events (evs : list event) : M unit :=
  match evs with
  | [] => ret tt
  | ev :: evs' => except_blocking_io (handle_event ev);; run_events evs'
  end.

(* ------------------------------------------------------------------ *)
(** ** [get_hotkey_code] (lines 100-110, 155-163) *)

(** evdev codes of the keys named in [KEY_MAP]. *)
Definition KEY_F12 : nat := 88.

(** [KEY_MAP], in the source's order. *)
Definition KEY_MAP : list (string * nat) :=
  [("f1", 59); ("f2", 60); ("f3", 61); ("f4", 62);
   ("f5", 63); ("f6", 64); ("f7", 65); ("f8", 66);
   ("f9", 67); ("f10", 68); ("f11", 87); ("f12", KEY_F12);
   ("f13", 183); ("f14", 184); ("f15", 185); ("f16", 186);
   ("f17", 187); ("f18", 188); ("f19", 189); ("f20", 190);
   ("scroll_lock", 70); ("pause", 119);
   ("insert", 110); ("home", 102); ("end", 107);
   ("pageup", 104); ("pagedown", 109)].

(** Unknown names fall back to F12 with a warning. *)
Definition get_hotkey_code (key_name : string) : nat :=
  match dict_get (Py.lower key_name) KEY_MAP with
  | Some code => code
  | None => KEY_F12
  end.

(* ------------------------------------------------------------------ *)
(** ** [check_dependencies] (lines 647-688) *)

(** The [missing] list of [(command, package)] pairs; [which] tells whether
    [which cmd] succeeds. *)
Definition missing_dependencies (c : config) (which : string -> bool)
  : list (string * string) :=
  (if which "arecord" then [] else [("arecord", "alsa-utils")])
  ++ (if IS_WAYLAND c
      then if which "wl-copy" then [] else [("wl-copy", "wl-clipboard")]
      else if which "xclip" then [] else [("xclip", "xclip")])
  ++ (if AUTO_TYPE c
      then if IS_WAYLAND c
           then if which "ydotool" then [] else [("ydotool", "ydotool")]
           else if which "xdotool" then [] else [("xdotool", "xdotool")]
      else []).

(** [sys.exit(1)] when anything is missing. *)
Definition check_dependencies (c : config) (which : string -> bool) : res unit :=
  match missing_dependencies c which with
  | [] => Ok tt
  | _ => Exc "SystemExit: 1"
  end.

(* ------------------------------------------------------------------ *)
(** ** Auxiliary notions for the properties *)

(** Number of occurrences of a character. *)
Fixpoint count_char (c : ascii) (s : string) : nat :=
  match s with
  | EmptyString => 0
  | String x r => (if Ascii.eqb x c then 1 else 0) + count_char c r
  end.

(** The attributes of the recording session: the steps of [stop_recording]
    after its first lines, and [_load_model], leave them alone. *)
Definition same_session (w w' : world) : Prop :=
  recording w' = recording w /\ record_process w' = record_process w
  /\ temp_file w' = temp_file w /\ files w' = files w.

(** The recording flag and the capture process. *)
Definition same_proc (w w' : world) : Prop :=
  recording w' = recording w /\ record_process w' = record_process w.

(** [m] relates the world before and after by [R], whatever it returns. *)
Definition keeps (R : world -> world -> Prop) {A} (m : M A) : Prop :=
  forall e w r w', m e w = (r, w') -> R w w'.

(** Between events of a run that did not raise: while recording there is a
    live arecord process and an existing temporary file; while idle there is
    no process. *)
Definition session_inv (w : world) : Prop :=
  (recording w = true ->
     exists n pid, temp_file w = Some n /\ In n (files w) /\ record_process w = Some pid)
  /\ (recording w = false -> record_process w = None).

(* ------------------------------------------------------------------ *)
(** ** Specification-side definitions *)

(** A chorded keystroke as the spec describes a [PasteKeySequence]: the
    [(keycode, isPress)] pairs pressing every key in order, then releasing
    them in reverse order. *)
Definition chord_sequence (ks : list nat) : list (nat * bool) :=
  map (fun k => (k, true)) ks ++ map (fun k => (k, false)) (rev ks).

(** The ydotool rendering [keycode:1] / [keycode:0] of one pair. *)
Definition render_key_event (p : nat * bool) : string :=
  (Py.show_nat (fst p) ++ (if snd p then ":1" else ":0"))%string.


(** Effects that write the clipboard or inject keystrokes. *)
Definition delivery_effect (ef : effect) : bool :=
  match ef with
  | Clipboard _ _ => true
  | Run ("ydotool" :: _) => true
  | Run ("xdotool" :: _) => true
  | _ => false
  end.

(* ------------------------------------------------------------------ *)
(** ** Concrete scenarios *)

(** A press and a release of the configured hotkey. *)
Definition press (c : config) : event := KeyEvent EV_KEY (HOTKEY_CODE c) 1.
Definition release (c : config) : event := KeyEvent EV_KEY (HOTKEY_CODE c) 0.

(** An outside world where every executable can be spawned, the model load
    ends with [load], every transcription returns [segs] with detected
    language [detected], and the focused window has class [window]. *)
Definition oracle_with (ok : string -> bool) (load : option string)
    (segs : list string) (detected : string) (window : option string) : oracle :=
  mkOracle ok load (fun _ _ _ => Ok (segs, detected)) window.

Definition all_programs : string -> bool := fun _ => true.

(** arecord is missing from the system. *)
Definition no_arecord : string -> bool := fun p => negb (String.eqb p "arecord").

(** The default configuration on Wayland with a tray icon, except for the
    [language] setting. *)
Definition config_with_language (language : string) : config :=
  let lang := parse_language_config language in
  mkConfig 88 "F12" true true "default" true true
    (fst lang) (snd lang) (parse_paste_keys "ctrl+v").

(** Default configuration on Wayland with a tray icon. *)
Definition wayland_env (o : oracle) : env := mkEnv (default_config true true) o.

(** A session just released: not yet stopped, model loaded, temp file
    present. *)
Definition session_world : world :=
  mkWorld true None (Some "/tmp/tmp0.wav") Loaded ["/tmp/tmp0.wav"] [] 1.

(** Every executable exists, the model loads, and every transcription
    returns [" hello "] in English; on Wayland and on X11. *)
Definition demo_oracle : oracle := oracle_with all_programs None [" hello "] "en" None.
Definition demo_env : env := wayland_env demo_oracle.

(** The default Wayland configuration with [NOTIFICATIONS = False]. *)
Definition quiet_env : env :=
  let lang := parse_language_config "auto" in
  mkEnv (mkConfig 88 "F12" true false "default" true true
           (fst lang) (snd lang) (parse_paste_keys "ctrl+v"))
        demo_oracle.

(** Spawning arecord fails because [fork] does ([EAGAIN]): [Popen] raises
    [BlockingIOError]. *)
Definition eagain_env : env :=
  mkEnv (cfg quiet_env)
        (MkOracle all_programs None (fun _ _ _ => Ok ([" hello "], "en")) None
                  (Some "BlockingIOError") None).

(** Idle, after a model load that failed with a message. *)
Definition failed_load_world : world :=
  mkWorld false None None (LoadFailed "CUDA out of memory") [] [] 0.



(* ------------------------------------------------------------------ *)
(** ** Helper lemmas *)

Lemma str_app_assoc (a b c : string) : (a ++ b ++ c)%string = ((a ++ b) ++ c)%string.
Proof. induction a as [|x a IH]; simpl; [reflexivity | now rewrite IH]. Qed.

Lemma str_app_nil_r (a : string) : (a ++ "")%string = a.
Proof. induction a as [|x a IH]; simpl; [reflexivity | now rewrite IH]. Qed.

Lemma split_cons (sep : ascii) (s : string) : exists p ps, Py.split sep s = p :: ps.
Proof.
  destruct s as [|c r]; simpl.
  - eauto.
  - destruct (Ascii.eqb c sep); [eauto|].
    destruct (Py.split sep r); eauto.
Qed.

(** [(a + "+" + b).split("+") == a.split("+") + b.split("+")] *)
Lemma split_plus_app (a b : string) :
  Py.split "+" (a ++ String "+" b) = Py.split "+" a ++ Py.split "+" b.
Proof.
  induction a as [|c a IH]; simpl.
  - reflexivity.
  - rewrite IH. destruct (Ascii.eqb c "+"); [reflexivity|].
    destruct (split_cons "+" a) as (p & ps & Hp). rewrite Hp. reflexivity.
Qed.

(** The keycodes depend on the configuration string only through its
    [+]-separated parts. *)
Definition part_keycodes (part : string) : list nat :=
  match dict_get (Py.lower (Py.strip part)) PASTE_KEYCODE_MAP with
  | Some kc => [kc]
  | None => []
  end.

Lemma paste_keycodes_parts (s : string) :
  paste_keycodes s = flat_map part_keycodes (Py.split "+" s).
Proof.
  unfold paste_keycodes, part_keycodes.
  generalize (Py.split "+" s) as l.
  induction l as [|p ps IH]; simpl; [reflexivity|].
  f_equal. exact IH.
Qed.


Lemma split_right (c : string) :
  (c = "" \/ exists c', c = String "+" c') ->
  exists C, forall x, Py.split "+" x = [x] -> Py.split "+" (x ++ c) = x :: C.
Proof.
  intros [-> | [c' ->]].
  - exists []. intros x Hx. now rewrite str_app_nil_r.
  - exists (Py.split "+" c'). intros x Hx. now rewrite split_plus_app, Hx.
Qed.

Lemma split_around (a c : string) :
  (a = "" \/ exists a', a = (a' ++ "+")%string) ->
  (c = "" \/ exists c', c = String "+" c') ->
  exists A C, forall x, Py.split "+" x = [x] ->
    Py.split "+" (a ++ x ++ c) = A ++ x :: C.
Proof.
  intros Ha Hc. destruct (split_right c Hc) as (C & HC).
  destruct Ha as [-> | [a' ->]].
  - exists [], C. exact HC.
  - exists (Py.split "+" a'), C. intros x Hx.
    rewrite <- str_app_assoc. simpl. rewrite split_plus_app, (HC x Hx).
    reflexivity.
Qed.

Lemma get_paste_keys_for_window_some (args : list string) (wc : string) :
  get_paste_keys_for_window args (Some wc) =
  if Py.mem (Py.lower wc) (map Py.lower TERMINAL_APPS) then PASTE_TERMINAL_ARGS else args.
Proof.
  unfold get_paste_keys_for_window.
  destruct (String.eqb_spec wc "") as [-> | Hne]; reflexivity.
Qed.

(** [get_paste_keys_for_window] itself classifies as the spec says: a class
    equal, up to case, to one of [TERMINAL_APPS] gets Ctrl+Shift+V, anything
    else (including no answer) the configured default. *)
Lemma get_paste_keys_for_window_classifies (args : list string) (wc : option string) :
  get_paste_keys_for_window args wc =
  match wc with
  | Some c => if existsb (fun t => String.eqb (Py.lower c) (Py.lower t)) TERMINAL_APPS
              then PASTE_TERMINAL_ARGS else args
  | None => args
  end.
Proof.
  destruct wc as [c|]; [|reflexivity].
  rewrite get_paste_keys_for_window_some. unfold Py.mem.
  assert (E : forall l, existsb (String.eqb (Py.lower c)) (map Py.lower l) =
                       existsb (fun t => String.eqb (Py.lower c) (Py.lower t)) l).
  { induction l as [|t ts IH]; simpl; [reflexivity|]. now rewrite IH. }
  now rewrite E.
Qed.

(** *** Frame lemmas for the transcription step *)















(* ------------------------------------------------------------------ *)
(** ** Claims *)



(** C9: a paste combination with a non-empty keycode list [k1..kn] yields
    the presses [k1..kn] followed by the releases [kn..k1], 2n arguments. *)
Theorem C9_parse_paste_keys_chord (s : string) (ks : list nat)
  (Hks : paste_keycodes s = ks) (Hne : ks <> []) :
  parse_paste_keys s = map render_key_event (chord_sequence ks)
  /\ length (parse_paste_keys s) = 2 * length ks.
Proof.
  assert (P : parse_paste_keys s =
              map (fun kc => (Py.show_nat kc ++ ":1")%string) ks
              ++ map (fun kc => (Py.show_nat kc ++ ":0")%string) (rev ks)).
  { unfold parse_paste_keys. rewrite Hks. destruct ks; [contradiction | reflexivity]. }
  rewrite P. split.
  - unfold chord_sequence. rewrite map_app, !map_map. reflexivity.
  - rewrite length_app, !length_map, length_rev. lia.
Qed.

(** C10: replacing a key name "b" by "s" in a paste combination does not
    change the injected sequence: both map to keycode 31. *)
Theorem C10_b_and_s_same_keys (a c : string)
  (Ha : a = "" \/ exists a', a = (a' ++ "+")%string)
  (Hc : c = "" \/ exists c', c = String "+" c') :
  parse_paste_keys (a ++ "b" ++ c) = parse_paste_keys (a ++ "s" ++ c).
Proof.
  destruct (split_around a c Ha Hc) as (A & C & H).
  unfold parse_paste_keys. rewrite !paste_keycodes_parts.
  rewrite (H "b" eq_refl), (H "s" eq_refl), !flat_map_app.
  reflexivity.
Qed.

(** C4: under the restricted-auto policy (allowed list, no forced
    language) the detection pass (beam 1) is followed by the real pass
    (beam 5) with the detected language when it is allowed and with the
    first allowed entry otherwise. *)
Theorem C4_restricted_auto_language (e : env) (w : world) (name first : string)
  (rest segs : list string) (detected : string)
  (Hlang : LANGUAGE (cfg e) = None)
  (Hallowed : ALLOWED_LANGUAGES (cfg e) = Some (first :: rest))
  (Hgate : model_gate w = Loaded)
  (Hdetect : model_transcribe (ora e) name 1 None = Ok (segs, detected)) :
  let resolved := if Py.mem detected (first :: rest) then detected else first in
  determine_language name e w
    = (Ok (Some resolved), set_trace (trace w ++ [Transcribe name 1 None]) w)
  /\ trace (snd (transcribe_text name e w))
     = trace w ++ [Transcribe name 1 None; Transcribe name 5 (Some resolved)].
Proof.
  destruct e as [c o]. destruct w as [rc rp tf g fs tr nid].
  simpl in Hlang, Hallowed, Hgate, Hdetect. subst g.
  assert (D : determine_language name (mkEnv c o) (mkWorld rc rp tf Loaded fs tr nid)
              = (Ok (Some (if Py.mem detected (first :: rest) then detected else first)),
                 set_trace (tr ++ [Transcribe name 1 None]) (mkWorld rc rp tf Loaded fs tr nid))).
  { unfold determine_language, transcribe, bind, asks, get, emit, modify, lift, ret.
    simpl. rewrite Hallowed, Hlang. simpl. rewrite Hdetect. simpl.
    destruct ((detected =? first)%string || Py.mem detected rest); reflexivity. }
  split; [exact D|].
  unfold transcribe_text. unfold bind at 1. rewrite D. cbv beta iota.
  unfold bind, transcribe, get, emit, modify, asks, lift, ret. simpl.
  destruct (model_transcribe o name 5 _) as [[s d]|x]; simpl;
    now rewrite <- app_assoc.
Qed.

(** C7: a hotkey press while recording and a hotkey release while idle
    leave the whole world (state, files, processes, trace) unchanged. *)
Theorem C7_duplicate_edges_noop (e : env) (w : world) :
  (recording w = true -> handle_event (press (cfg e)) e w = (Ok tt, w))
  /\ (recording w = false -> handle_event (release (cfg e)) e w = (Ok tt, w)).
Proof.
  unfold handle_event, press, release, bind, asks. simpl.
  rewrite Nat.eqb_refl. simpl.
  split; intros H.
  - unfold start_recording, bind, get. rewrite H. reflexivity.
  - unfold stop_recording, bind, get. rewrite H. reflexivity.
Qed.

(** C1 (code): [stop_recording] injects [PASTE_YDOTOOL_ARGS] whatever the
    focused window is; [get_paste_keys_for_window], which would select
    Ctrl+Shift+V for a terminal, is never called.  With the default
    [ctrl+v] configuration on Wayland and the focused window "alacritty",
    the session injects Ctrl+V. *)
Theorem C1_terminal_window_gets_default_keys :
  let e := wayland_env (oracle_with all_programs None ["hello"] "en" (Some "alacritty")) in
  filter delivery_effect
    (trace (snd (run_events [ModelLoadFinished; press (cfg e); release (cfg e)] e init_world)))
  = [Clipboard ["wl-copy"] "hello"; Run ["ydotool"; "key"; "29:1"; "47:1"; "47:0"; "29:0"]]
  /\ get_paste_keys_for_window (PASTE_YDOTOOL_ARGS (cfg e)) (active_window_class (ora e))
     = ["29:1"; "42:1"; "47:1"; "47:0"; "42:0"; "29:0"].
Proof. intros e. split; vm_compute; reflexivity. Qed.

(** C2 (code): the temporary file is deleted after a successful session, a
    session without speech and a failed transcription, but not when the
    model load ends in an error while the hotkey is held: [stop_recording]
    returns before its [try ... finally]. *)
Theorem C2_model_error_leaves_temp_file :
  let run_session (o : oracle) :=
    run_events [press (cfg (wayland_env o)); release (cfg (wayland_env o))]
      (wayland_env o) init_world in
  files (snd (run_session (oracle_with all_programs None ["hi"] "en" None))) = []
  /\ files (snd (run_session (oracle_with all_programs None [] "en" None))) = []
  /\ files (snd (run_session (mkOracle all_programs None
                                 (fun _ _ _ => Exc "RuntimeError") None))) = []
  /\ run_session (oracle_with all_programs (Some "CUDA failed") [] "en" None)
     = (Ok tt, mkWorld false None (Some "/tmp/tmp0.wav") (LoadFailed "CUDA failed")
                 ["/tmp/tmp0.wav"]
                 [TrayUpdate "recording"; TempCreated "/tmp/tmp0.wav";
                  Spawn ["arecord"; "-f"; "S16_LE"; "-r"; "16000"; "-c"; "1";
                         "-t"; "wav"; "/tmp/tmp0.wav"] 1;
                  Notification "Recording..." "Release F12 when done"
                    "audio-input-microphone" 30000;
                  Terminate 1; TrayUpdate "processing";
                  Notification "Error" "Model failed to load" "dialog-error" 3000] 2).
Proof. intros run_session. repeat split; vm_compute; reflexivity. Qed.

(** C8 (code): [start_recording] tests [self.model_error] by truthiness;
    a load that failed with an exception whose [str] is empty (such as a
    bare [MemoryError()]) leaves [model_error == ""], and a press then
    starts a recording: flag set, temp file created, arecord spawned. *)
Theorem C8_empty_error_press_starts_recording :
  let e := wayland_env (oracle_with all_programs (Some "") [] "en" None) in
  let '(r, w') := run_events [ModelLoadFinished; press (cfg e)] e init_world in
  r = Ok tt /\ model_gate w' = LoadFailed "" /\ recording w' = true
  /\ files w' = ["/tmp/tmp0.wav"] /\ record_process w' = Some 1.
Proof. vm_compute. repeat split. Qed.

(** A press is ignored when the load failed with a non-empty message. *)
Lemma press_ignored_on_model_error (e : env) (w : world) (msg : string)
  (Hg : model_gate w = LoadFailed msg) (Hm : msg <> "") :
  handle_event (press (cfg e)) e w = (Ok tt, w).
Proof.
  unfold handle_event, press, bind, asks. simpl. rewrite Nat.eqb_refl. simpl.
  unfold start_recording, model_error, bind, get, ret.
  destruct (recording w); [reflexivity|].
  rewrite Hg. simpl. apply String.eqb_neq in Hm. rewrite Hm. reflexivity.
Qed.

(* ------------------------------------------------------------------ *)
(** ** Witnesses: the claims at concrete inputs *)

(** Allowed list "en,it", detected "fr": the real pass uses "en". *)
Lemma C4_restricted_auto_language_witness :
  trace (snd (transcribe_text "/tmp/tmp0.wav"
                (mkEnv (config_with_language "en,it")
                       (oracle_with all_programs None [] "fr" None))
                session_world))
  = [Transcribe "/tmp/tmp0.wav" 1 None; Transcribe "/tmp/tmp0.wav" 5 (Some "en")].
Proof.
  destruct (C4_restricted_auto_language
              (mkEnv (config_with_language "en,it")
                     (oracle_with all_programs None [] "fr" None))
              session_world "/tmp/tmp0.wav" "en" ["it"] [] "fr"
              eq_refl eq_refl eq_refl eq_refl) as [_ H].
  exact H.
Defined.


Lemma C7_duplicate_edges_noop_witness :
  handle_event (press (cfg (wayland_env (oracle_with all_programs None [] "en" None))))
    (wayland_env (oracle_with all_programs None [] "en" None)) session_world
  = (Ok tt, session_world)
  /\ handle_event (release (cfg (wayland_env (oracle_with all_programs None [] "en" None))))
       (wayland_env (oracle_with all_programs None [] "en" None)) init_world
  = (Ok tt, init_world).
Proof.
  split.
  - apply (proj1 (C7_duplicate_edges_noop
                    (wayland_env (oracle_with all_programs None [] "en" None))
                    session_world)).
    reflexivity.
  - apply (proj2 (C7_duplicate_edges_noop
                    (wayland_env (oracle_with all_programs None [] "en" None))
                    init_world)).
    reflexivity.
Defined.

Lemma C9_parse_paste_keys_chord_witness :
  paste_keycodes "super+shift+v" = [125; 42; 47]
  /\ parse_paste_keys "super+shift+v" = map render_key_event (chord_sequence [125; 42; 47])
  /\ length (parse_paste_keys "super+shift+v") = 2 * length [125; 42; 47].
Proof.
  split; [vm_compute; reflexivity|].
  apply (C9_parse_paste_keys_chord "super+shift+v" [125; 42; 47]);
    [vm_compute; reflexivity | discriminate].
Defined.

Lemma C10_b_and_s_same_keys_witness :
  parse_paste_keys ("ctrl+" ++ "b" ++ "+v") = parse_paste_keys ("ctrl+" ++ "s" ++ "+v").
Proof.
  apply (C10_b_and_s_same_keys "ctrl+" "+v").
  - right. exists "ctrl". reflexivity.
  - right. exists "v". reflexivity.
Defined.

(* ------------------------------------------------------------------ *)
(** ** Further properties of the code *)

(** *** String lemmas *)

Lemma lower_char_idem (c : ascii) : Py.lower_char (Py.lower_char c) = Py.lower_char c.
Proof. destruct c as [[] [] [] [] [] [] [] []]; reflexivity. Qed.

Lemma lower_char_space (c : ascii) : Py.is_space (Py.lower_char c) = Py.is_space c.
Proof. destruct c as [[] [] [] [] [] [] [] []]; reflexivity. Qed.

Lemma lower_char_eqb_plus (c : ascii) :
  Ascii.eqb (Py.lower_char c) "+" = Ascii.eqb c "+".
Proof. destruct c as [[] [] [] [] [] [] [] []]; reflexivity. Qed.

Lemma lower_char_eqb_comma (c : ascii) :
  Ascii.eqb (Py.lower_char c) "," = Ascii.eqb c ",".
Proof. destruct c as [[] [] [] [] [] [] [] []]; reflexivity. Qed.

Lemma space_not_comma (c : ascii) : Py.is_space c = true -> Ascii.eqb c "," = false.
Proof. destruct c as [[] [] [] [] [] [] [] []]; try reflexivity; discriminate. Qed.

Lemma lower_idem (s : string) : Py.lower (Py.lower s) = Py.lower s.
Proof. induction s as [|c s IH]; simpl; [reflexivity|]. now rewrite lower_char_idem, IH. Qed.

Lemma lstrip_lower (s : string) : Py.lstrip (Py.lower s) = Py.lower (Py.lstrip s).
Proof.
  induction s as [|c s IH]; simpl; [reflexivity|].
  rewrite lower_char_space. destruct (Py.is_space c); [exact IH | reflexivity].
Qed.

Lemma list_ascii_lower (s : string) :
  list_ascii_of_string (Py.lower s) = map Py.lower_char (list_ascii_of_string s).
Proof. induction s as [|c s IH]; simpl; [reflexivity|]. now rewrite IH. Qed.

Lemma string_of_list_lower (l : list ascii) :
  string_of_list_ascii (map Py.lower_char l) = Py.lower (string_of_list_ascii l).
Proof. induction l as [|c l IH]; simpl; [reflexivity|]. now rewrite IH. Qed.

Lemma rev_str_lower (s : string) : Py.rev_str (Py.lower s) = Py.lower (Py.rev_str s).
Proof.
  unfold Py.rev_str. rewrite list_ascii_lower, <- map_rev.
  apply string_of_list_lower.
Qed.

Lemma strip_lower (s : string) : Py.strip (Py.lower s) = Py.lower (Py.strip s).
Proof.
  unfold Py.strip, Py.rstrip.
  now rewrite lstrip_lower, rev_str_lower, lstrip_lower, rev_str_lower.
Qed.

Lemma split_plus_lower (s : string) :
  Py.split "+" (Py.lower s) = map Py.lower (Py.split "+" s).
Proof.
  induction s as [|c s IH]; simpl; [reflexivity|].
  rewrite IH, lower_char_eqb_plus.
  destruct (Ascii.eqb c "+"); [reflexivity|].
  destruct (split_cons "+" s) as (p & ps & ->). reflexivity.
Qed.

Lemma paste_keycodes_lower (s : string) :
  paste_keycodes (Py.lower s) = paste_keycodes s.
Proof.
  rewrite !paste_keycodes_parts, split_plus_lower.
  induction (Py.split "+" s) as [|p ps IH]; [reflexivity|].
  simpl. rewrite IH. unfold part_keycodes.
  now rewrite strip_lower, lower_idem.
Qed.

Lemma count_char_list (c : ascii) (l : list ascii) :
  count_char c (string_of_list_ascii l) = length (filter (fun x => Ascii.eqb x c) l).
Proof.
  induction l as [|x l IH]; simpl; [reflexivity|].
  rewrite IH. destruct (Ascii.eqb x c); reflexivity.
Qed.

Lemma count_char_rev_str (c : ascii) (s : string) :
  count_char c (Py.rev_str s) = count_char c s.
Proof.
  assert (E : count_char c s =
              length (filter (fun x => Ascii.eqb x c) (list_ascii_of_string s))).
  { rewrite <- count_char_list. now rewrite string_of_list_ascii_of_string. }
  unfold Py.rev_str. rewrite count_char_list, E.
  generalize (list_ascii_of_string s) as l.
  induction l as [|x l IH]; simpl; [reflexivity|].
  rewrite filter_app, length_app, IH. simpl.
  destruct (Ascii.eqb x c); simpl; lia.
Qed.

Lemma count_comma_lstrip (s : string) :
  count_char "," (Py.lstrip s) = count_char "," s.
Proof.
  induction s as [|c s IH]; simpl; [reflexivity|].
  destruct (Py.is_space c) eqn:E; [|reflexivity].
  rewrite IH, (space_not_comma c E). reflexivity.
Qed.

Lemma count_comma_strip (s : string) :
  count_char "," (Py.strip s) = count_char "," s.
Proof.
  unfold Py.strip, Py.rstrip.
  now rewrite count_char_rev_str, count_comma_lstrip, count_char_rev_str, count_comma_lstrip.
Qed.

Lemma count_comma_lower (s : string) :
  count_char "," (Py.lower s) = count_char "," s.
Proof.
  induction s as [|c s IH]; simpl; [reflexivity|].
  now rewrite lower_char_eqb_comma, IH.
Qed.

Lemma split_length (sep : ascii) (s : string) :
  length (Py.split sep s) = S (count_char sep s).
Proof.
  induction s as [|c s IH]; simpl; [reflexivity|].
  destruct (Ascii.eqb c sep); simpl; [now rewrite IH|].
  destruct (split_cons sep s) as (p & ps & Hp). rewrite Hp in IH |- *. exact IH.
Qed.

Lemma split_no_sep (sep : ascii) (s : string) :
  count_char sep s = 0 -> Py.split sep s = [s].
Proof.
  induction s as [|c s IH]; simpl; [reflexivity|].
  destruct (Ascii.eqb c sep); simpl; [discriminate|].
  intros H. now rewrite (IH H).
Qed.

Lemma dict_get_in (k : string) (v : nat) (d : list (string * nat)) :
  dict_get k d = Some v -> In (k, v) d.
Proof.
  induction d as [|[k' v'] d IH]; simpl; [discriminate|].
  destruct (String.eqb_spec k k') as [->|_].
  - intros H. injection H as ->. now left.
  - intros H. right. exact (IH H).
Qed.

(** *** Configuration parsers *)

(** [parse_paste_keys] always yields a press/release chord over a non-empty
    key list; with no recognised key name that list is Ctrl+V. *)
Theorem parse_paste_keys_nonempty_chord (s : string) :
  exists ks, ks <> []
    /\ parse_paste_keys s = map render_key_event (chord_sequence ks)
    /\ (paste_keycodes s = [] -> ks = [29; 47])
    /\ (paste_keycodes s <> [] -> ks = paste_keycodes s).
Proof.
  exists (match paste_keycodes s with [] => [29; 47] | ks => ks end).
  unfold parse_paste_keys, chord_sequence.
  rewrite map_app, !map_map.
  destruct (paste_keycodes s) as [|k ks].
  - repeat split; try discriminate. intros H; now contradiction H.
  - repeat split; try discriminate.
Qed.

(** Paste-key names are case-insensitive: lowercasing the whole setting
    changes nothing. *)
Theorem parse_paste_keys_case_insensitive (s : string) :
  parse_paste_keys (Py.lower s) = parse_paste_keys s.
Proof. unfold parse_paste_keys. now rewrite paste_keycodes_lower. Qed.

(** [get_hotkey_code] is case-insensitive, and it returns F12 exactly for
    the name "f12" and for unknown names. *)
Theorem get_hotkey_code_f12_fallback (k : string) :
  get_hotkey_code (Py.lower k) = get_hotkey_code k
  /\ (get_hotkey_code k = KEY_F12 <->
      Py.lower k = "f12" \/ dict_get (Py.lower k) KEY_MAP = None).
Proof.
  split; [unfold get_hotkey_code; now rewrite lower_idem|].
  unfold get_hotkey_code. destruct (dict_get (Py.lower k) KEY_MAP) as [code|] eqn:E.
  - apply dict_get_in in E. split.
    + intros ->. left. unfold KEY_MAP, KEY_F12 in E. simpl in E.
      repeat (destruct E as [E|E]; [injection E as E; try lia; now symmetry|]).
      contradiction.
    + intros [H|H]; [|discriminate].
      rewrite H in E. unfold KEY_MAP, KEY_F12 in *. simpl in E.
      repeat (destruct E as [E|E]; [injection E as E; try discriminate; lia|]).
      contradiction.
  - split; [intros _; now right | reflexivity].
Qed.

(** [parse_language_config]: unless the value is "auto", a value without a
    comma forces one language (the lowercased, stripped value) and a value
    with commas gives an allowed list with one entry more than there are
    commas (empty entries included). *)
Theorem parse_language_config_modes (s : string)
  (Hauto : Py.lower (Py.strip s) <> "auto") :
  (count_char "," s = 0 ->
     parse_language_config s = (Some (Py.strip (Py.lower (Py.strip s))), None))
  /\ (0 < count_char "," s ->
     exists parts, parse_language_config s = (None, Some parts)
                   /\ length parts = S (count_char "," s)).
Proof.
  assert (C : count_char "," (Py.lower (Py.strip s)) = count_char "," s)
    by now rewrite count_comma_lower, count_comma_strip.
  unfold parse_language_config.
  apply String.eqb_neq in Hauto. rewrite Hauto.
  split.
  - intros H0. rewrite split_no_sep by lia. reflexivity.
  - intros Hpos.
    assert (L : length (map Py.strip (Py.split "," (Py.lower (Py.strip s))))
                = S (count_char "," s)) by now rewrite length_map, split_length, C.
    destruct (map Py.strip (Py.split "," (Py.lower (Py.strip s)))) as [|p [|q r]] eqn:E.
    + discriminate L.
    + simpl in L. lia.
    + eexists. split; [reflexivity | exact L].
Qed.

(** *** Frame lemmas *)

Section Frame.
Variable R : world -> world -> Prop.
Hypothesis R_refl : forall w, R w w.
Hypothesis R_trans : forall w1 w2 w3, R w1 w2 -> R w2 w3 -> R w1 w3.
Hypothesis R_trace : forall t w, R w (set_trace t w).
Hypothesis R_gate : forall g w, R w (set_model_gate g w).

Lemma keeps_ret {A} (a : A) : keeps R (ret a).
Proof. intros e w r w' H. injection H as _ <-. apply R_refl. Qed.

Lemma keeps_raise {A} (msg : string) : keeps R (@raise A msg).
Proof. intros e w r w' H. injection H as _ <-. apply R_refl. Qed.

Lemma keeps_lift {A} (x : res A) : keeps R (lift x).
Proof. intros e w r w' H. injection H as _ <-. apply R_refl. Qed.

Lemma keeps_get : keeps R get.
Proof. intros e w r w' H. injection H as _ <-. apply R_refl. Qed.

Lemma keeps_asks {A} (f : env -> A) : keeps R (asks f).
Proof. intros e w r w' H. injection H as _ <-. apply R_refl. Qed.

Lemma keeps_emit (ef : effect) : keeps R (emit ef).
Proof. intros e w r w' H. injection H as _ <-. apply R_trace. Qed.

Lemma keeps_bind {A B} (m : M A) (k : A -> M B) :
  keeps R m -> (forall a, keeps R (k a)) -> keeps R (bind m k).
Proof.
  intros Hm Hk e w r w' H. unfold bind in H.
  destruct (m e w) as [[a|x] w0] eqn:E.
  - exact (R_trans _ _ _ (Hm _ _ _ _ E) (Hk a _ _ _ _ H)).
  - injection H as _ <-. exact (Hm _ _ _ _ E).
Qed.

Lemma keeps_try_except_finally (body : M unit) (handler : string -> M unit) (fin : M unit) :
  keeps R body -> (forall x, keeps R (handler x)) -> keeps R fin ->
  keeps R (try_except_finally body handler fin).
Proof.
  intros Hb Hh Hf e w r w' H. unfold try_except_finally in H.
  destruct (body e w) as [r1 w1] eqn:E1.
  assert (K1 : R w w1) by exact (Hb _ _ _ _ E1).
  destruct (match r1 with Ok _ => (Ok tt, w1) | Exc x => handler x e w1 end)
    as [r2 w2] eqn:E2.
  assert (K2 : R w w2).
  { destruct r1 as [u|x].
    - injection E2 as _ <-. exact K1.
    - exact (R_trans _ _ _ K1 (Hh x _ _ _ _ E2)). }
  destruct (fin e w2) as [[u|x] w3] eqn:E3; injection H as _ <-;
    exact (R_trans _ _ _ K2 (Hf _ _ _ _ E3)).
Qed.

Create HintDb frame.
Hint Resolve keeps_ret keeps_raise keeps_lift keeps_get keeps_asks keeps_emit
  keeps_bind keeps_try_except_finally : frame.

Ltac frame_step :=
  match goal with
  | |- keeps R (bind _ _) => apply keeps_bind; [|intro]
  | |- keeps R (if ?b then _ else _) => destruct b
  | |- keeps R (match ?x with _ => _ end) => destruct x
  | |- _ => eauto with frame
  end.

Lemma keeps_update_tray (st : string) : keeps R (update_tray st).
Proof. unfold update_tray. repeat frame_step. Qed.

Lemma keeps_notify (t m i : string) (n : nat) : keeps R (notify t m i n).
Proof. unfold notify. repeat frame_step. Qed.

Lemma keeps_popen_communicate (argv : list string) (input : string) :
  keeps R (popen_communicate argv input).
Proof. unfold popen_communicate. repeat frame_step. Qed.

Lemma keeps_subprocess_run (argv : list string) : keeps R (subprocess_run argv).
Proof. unfold subprocess_run. repeat frame_step. Qed.

Lemma keeps_transcribe (name : string) (b : nat) (l : option string) :
  keeps R (transcribe name b l).
Proof. unfold transcribe. repeat frame_step. Qed.

Hint Resolve keeps_update_tray keeps_notify keeps_popen_communicate
  keeps_subprocess_run keeps_transcribe : frame.

Lemma keeps_transcribe_and_deliver : keeps R transcribe_and_deliver.
Proof.
  unfold transcribe_and_deliver, temp_name, getsize, transcribe_text,
    determine_language, deliver.
  repeat frame_step.
Qed.

Lemma keeps_model_error : keeps R model_error.
Proof. unfold model_error. repeat frame_step. Qed.

Lemma keeps_load_model_done : keeps R load_model_done.
Proof.
  intros e w r w' H. unfold load_model_done, bind, get, asks, ret, put in H.
  destruct (model_gate w); [|injection H as _ <-; apply R_refl|injection H as _ <-; apply R_refl].
  destruct (load_outcome (ora e)).
  - injection H as _ <-. apply R_gate.
  - apply (R_trans _ (set_model_gate Loaded w)); [apply R_gate|].
    exact (keeps_update_tray _ _ _ _ _ H).
Qed.

End Frame.

Lemma same_session_refl (w : world) : same_session w w.
Proof. repeat split. Qed.

Lemma same_session_trans (w1 w2 w3 : world) :
  same_session w1 w2 -> same_session w2 w3 -> same_session w1 w3.
Proof. unfold same_session. intuition congruence. Qed.

Lemma same_proc_refl (w : world) : same_proc w w.
Proof. repeat split. Qed.

Lemma same_proc_trans (w1 w2 w3 : world) :
  same_proc w1 w2 -> same_proc w2 w3 -> same_proc w1 w3.
Proof. unfold same_proc. intuition congruence. Qed.

Lemma same_proc_trace (t : list effect) (w : world) : same_proc w (set_trace t w).
Proof. split; reflexivity. Qed.

Lemma same_proc_gate (g : gate) (w : world) : same_proc w (set_model_gate g w).
Proof. split; reflexivity. Qed.

Lemma same_session_trace (t : list effect) (w : world) : same_session w (set_trace t w).
Proof. repeat split. Qed.

Lemma same_session_gate (g : gate) (w : world) : same_session w (set_model_gate g w).
Proof. repeat split. Qed.

Create HintDb worlds.
Hint Resolve same_proc_refl same_proc_trans same_proc_trace same_proc_gate
  same_session_refl same_session_trans same_session_trace same_session_gate : worlds.
Hint Resolve keeps_ret keeps_raise keeps_lift keeps_get keeps_asks keeps_emit
  keeps_update_tray keeps_notify keeps_popen_communicate keeps_subprocess_run
  keeps_transcribe keeps_transcribe_and_deliver keeps_model_error
  keeps_load_model_done : worlds.

Ltac frame :=
  repeat first
    [ progress intros
    | solve [eauto with worlds]
    | match goal with |- keeps _ (try_except_finally _ _ _) =>
        eapply keeps_try_except_finally end
    | match goal with |- keeps _ (bind _ _) => eapply keeps_bind end
    | match goal with |- keeps _ (if ?b then _ else _) => destruct b end
    | match goal with |- keeps _ (match ?x with _ => _ end) => destruct x end ].

(** Computing the world record without touching the literals of the code
    (millisecond timeouts are unary numbers). *)
Tactic Notation "wred" :=
  cbv beta iota zeta delta [recording record_process temp_file model_gate files trace
    next_id set_recording set_record_process set_temp_file set_model_gate set_files
    set_trace set_next_id cfg ora negb].
Tactic Notation "wred" "in" hyp(H) :=
  cbv beta iota zeta delta [recording record_process temp_file model_gate files trace
    next_id set_recording set_record_process set_temp_file set_model_gate set_files
    set_trace set_next_id cfg ora negb] in H.

Lemma hd_arecord_cmd (d n : string) : hd "" (arecord_cmd d n) = "arecord".
Proof. reflexivity. Qed.

(** Splitting a run of [c1 ;; c2]. *)
Lemma bind_inv {A B} (m : M A) (k : A -> M B) (e : env) (w w' : world) (r : res B) :
  bind m k e w = (r, w') ->
  (exists a w1, m e w = (Ok a, w1) /\ k a e w1 = (r, w'))
  \/ (exists x, m e w = (Exc x, w') /\ r = Exc x).
Proof.
  unfold bind. destruct (m e w) as [[a|x] w1].
  - intro H. left. exists a, w1. split; [reflexivity|exact H].
  - intro H. injection H as <- <-. right. exists x. split; reflexivity.
Qed.

Lemma keeps_cleanup_proc : keeps same_proc cleanup.
Proof.
  intros e w r w' H. unfold cleanup in H.
  apply bind_inv in H as [[w0 [w1 [H1 H2]]]|[x [H1 _]]]; [|discriminate H1].
  injection H1 as <- <-.
  apply bind_inv in H2 as [[u [w2 [H1 H2]]]|[x [H1 H2]]].
  - apply (same_proc_trans _ w2).
    + destruct (temp_file w); [destruct (Py.mem s (files w))|].
      * unfold bind, put, emit, modify in H1. injection H1 as _ <-. split; reflexivity.
      * injection H1 as _ <-. apply same_proc_refl.
      * injection H1 as _ <-. apply same_proc_refl.
    + exact (keeps_update_tray _ same_proc_refl same_proc_trans same_proc_trace _ _ _ _ _ H2).
  - destruct (temp_file w); [destruct (Py.mem s (files w))|];
      unfold bind, put, emit, modify, ret in H1; discriminate H1.
Qed.

(** What [stop_recording] runs once the flag is cleared and the capture
    process is terminated. *)
Lemma keeps_stop_tail_proc :
  keeps same_proc
    (update_tray "processing";;
     load_model_done;;
     err <- model_error;;
     if truthy_str err then
       notify "Error" "Model failed to load" "dialog-error" 3000
     else
       try_except_finally transcribe_and_deliver
         (fun e => notify "Error" (Py.prefix 50 e) "dialog-error" 3000)
         cleanup).
Proof. pose proof keeps_cleanup_proc. frame. Qed.

Lemma stop_recording_clears (e : env) (w w' : world) (r : res unit) :
  recording w = true -> stop_recording e w = (r, w') ->
  recording w' = false /\ record_process w' = None.
Proof.
  intros Hr H. unfold stop_recording in H.
  apply bind_inv in H as [[w0 [w1 [H1 H]]]|[x [H1 _]]]; [|discriminate H1].
  injection H1 as <- <-. rewrite Hr in H. cbn [negb] in H.
  apply bind_inv in H as [[u [w1 [H1 H]]]|[x [H1 _]]]; [|discriminate H1].
  injection H1 as _ <-.
  apply bind_inv in H as [[u' [w2 [H1 H]]]|[x [H1 _]]].
  - assert (E : recording w2 = false /\ record_process w2 = None).
    { destruct (record_process w) eqn:Hp.
      - unfold bind, emit, modify in H1. injection H1 as _ <-. split; reflexivity.
      - injection H1 as _ <-. split; [reflexivity|exact Hp]. }
    destruct (keeps_stop_tail_proc _ _ _ _ H) as [E1 E2].
    rewrite E1, E2. exact E.
  - destruct (record_process w); unfold bind, emit, modify, ret in H1; discriminate H1.
Qed.

(** Unfolding [start_recording] in a hypothesis and following each of its
    branches. *)
Ltac split_start H :=
  unfold start_recording, model_error, update_tray, make_temp_file, popen, notify,
    emit, modify, bind, get, put, asks, ret, raise in H;
  wred in H; rewrite ?hd_arecord_cmd in H;
  repeat (match type of H with
          | context [popen_error ?o] => destruct (popen_error o) eqn:?
          | context [tempfile_error ?o] => destruct (tempfile_error o) eqn:?
          | context [if ?b then _ else _] => destruct b eqn:?
          end; wred in H; rewrite ?hd_arecord_cmd in H).

(** A call of [start_recording] that returns normally either did nothing or
    left a recording with its temporary file and capture process. *)
Lemma start_recording_ok (e : env) (w w' : world) :
  start_recording e w = (Ok tt, w') ->
  w' = w
  \/ (recording w' = true /\
      exists n pid, temp_file w' = Some n /\ In n (files w') /\ record_process w' = Some pid).
Proof.
  intro H. destruct e as [c o], w as [rec rp tf g fs tr nid].
  split_start H; try discriminate H; injection H as <-;
    first [ left; reflexivity
          | right; (split; [reflexivity|]); do 2 eexists; repeat split; left; reflexivity ].
Qed.

(** A computation that never raises. *)
Definition no_raise {A} (m : M A) : Prop :=
  forall e w r w', m e w = (r, w') -> exists a, r = Ok a.

Lemma no_raise_ret {A} (a : A) : no_raise (ret a).
Proof. intros e w r w' H. injection H as <- _. eauto. Qed.

Lemma no_raise_get : no_raise get.
Proof. intros e w r w' H. injection H as <- _. eauto. Qed.

Lemma no_raise_put (w0 : world) : no_raise (put w0).
Proof. intros e w r w' H. injection H as <- _. eauto. Qed.

Lemma no_raise_modify (f : world -> world) : no_raise (modify f).
Proof. intros e w r w' H. injection H as <- _. eauto. Qed.

Lemma no_raise_asks {A} (f : env -> A) : no_raise (asks f).
Proof. intros e w r w' H. injection H as <- _. eauto. Qed.

Lemma no_raise_emit (ef : effect) : no_raise (emit ef).
Proof. intros e w r w' H. injection H as <- _. eauto. Qed.

Lemma no_raise_bind {A B} (m : M A) (k : A -> M B) :
  no_raise m -> (forall a, no_raise (k a)) -> no_raise (bind m k).
Proof.
  intros Hm Hk e w r w' H. unfold bind in H.
  destruct (m e w) as [[a|x] w0] eqn:E.
  - exact (Hk a _ _ _ _ H).
  - destruct (Hm _ _ _ _ E) as [a Ha]. discriminate Ha.
Qed.

(** Whatever the body does, a [try]/[except]/[finally] whose handler and
    [finally] clause never raise does not raise either. *)
Lemma no_raise_try_except_finally (body : M unit) (handler : string -> M unit)
    (fin : M unit) :
  (forall x, no_raise (handler x)) -> no_raise fin ->
  no_raise (try_except_finally body handler fin).
Proof.
  intros Hh Hf e w r w' H. unfold try_except_finally in H.
  destruct (body e w) as [r1 w1].
  destruct (match r1 with Ok _ => (Ok tt, w1) | Exc x => handler x e w1 end)
    as [r2 w2] eqn:E2.
  assert (K : exists a, r2 = Ok a).
  { destruct r1 as [u|x]; [injection E2 as <- _; eauto|exact (Hh x _ _ _ _ E2)]. }
  destruct (fin e w2) as [[u|x] w3] eqn:E3.
  - injection H as <- _. exact K.
  - destruct (Hf _ _ _ _ E3) as [a Ha]. discriminate Ha.
Qed.

Create HintDb no_raise_db.
Hint Resolve no_raise_ret no_raise_get no_raise_put no_raise_modify no_raise_asks
  no_raise_emit : no_raise_db.

Ltac no_raise_step :=
  match goal with
  | |- no_raise (bind _ _) => apply no_raise_bind; [|intro]
  | |- no_raise (try_except_finally _ _ _) => apply no_raise_try_except_finally; [intro|]
  | |- no_raise (if ?b then _ else _) => destruct b
  | |- no_raise (match ?x with _ => _ end) => destruct x
  | |- _ => solve [eauto with no_raise_db]
  end.

Lemma no_raise_update_tray (st : string) : no_raise (update_tray st).
Proof. unfold update_tray. repeat no_raise_step. Qed.

Lemma no_raise_notify (t m i : string) (n : nat) : no_raise (notify t m i n).
Proof. unfold notify. repeat no_raise_step. Qed.

Hint Resolve no_raise_update_tray no_raise_notify : no_raise_db.

Lemma no_raise_load_model_done : no_raise load_model_done.
Proof. unfold load_model_done. repeat no_raise_step. Qed.

Lemma no_raise_model_error : no_raise model_error.
Proof. unfold model_error. repeat no_raise_step. Qed.

Lemma no_raise_cleanup : no_raise cleanup.
Proof. unfold cleanup. repeat no_raise_step. Qed.

Hint Resolve no_raise_load_model_done no_raise_model_error no_raise_cleanup : no_raise_db.

(** [stop_recording] catches what transcription and delivery raise. *)
Lemma no_raise_stop_recording : no_raise stop_recording.
Proof. unfold stop_recording. repeat no_raise_step. Qed.

(** What a handler can raise: only [Popen] of arecord and the creation of
    the temporary file fail, in [start_recording]. *)
Lemma handle_event_exc (ev : event) (e : env) (w w' : world) (x : string) :
  handle_event ev e w = (Exc x, w') ->
  x = "FileNotFoundError" \/ popen_error (ora e) = Some x \/ tempfile_error (ora e) = Some x.
Proof.
  intro H. destruct ev as [ty code value|].
  - unfold handle_event in H.
    apply bind_inv in H as [[c [w1 [H1 H]]]|[y [H1 _]]]; [|discriminate H1].
    injection H1 as <- <-.
    destruct ((ty =? EV_KEY) && (code =? HOTKEY_CODE (cfg e)));
      [|unfold ret in H; discriminate H].
    destruct (value =? 1).
    + destruct e as [c o], w as [rec rp tf g fs tr nid]. cbn [ora].
      split_start H; try discriminate H; injection H as <- _;
        first [left; reflexivity | right; left; reflexivity | right; right; reflexivity].
    + destruct (value =? 0); [|unfold ret in H; discriminate H].
      destruct (no_raise_stop_recording _ _ _ _ H) as [a Ha]. discriminate Ha.
  - destruct (no_raise_load_model_done _ _ _ _ H) as [a Ha]. discriminate Ha.
Qed.

Lemma stop_recording_idle (e : env) (w : world) :
  recording w = false -> stop_recording e w = (Ok tt, w).
Proof.
  intro Hr. unfold stop_recording, bind, get. rewrite Hr. reflexivity.
Qed.

Lemma handle_event_inv (ev : event) (e : env) (w w' : world) :
  session_inv w -> handle_event ev e w = (Ok tt, w') -> session_inv w'.
Proof.
  intros Hi H. destruct ev as [ty code value|].
  - unfold handle_event in H.
    apply bind_inv in H as [[c [w1 [H1 H]]]|[x [H1 _]]]; [|discriminate H1].
    injection H1 as <- <-.
    destruct ((ty =? EV_KEY) && (code =? HOTKEY_CODE (cfg e))).
    2:{ injection H as <-. exact Hi. }
    destruct (value =? 1).
    + destruct (start_recording_ok _ _ _ H) as [->|[Hr Hs]]; [exact Hi|].
      split; [intros _; exact Hs|congruence].
    + destruct (value =? 0); [|injection H as <-; exact Hi].
      destruct (recording w) eqn:Hr.
      * destruct (stop_recording_clears _ _ _ _ Hr H) as [Hr' Hp'].
        split; [congruence|intros _; exact Hp'].
      * rewrite (stop_recording_idle _ _ Hr) in H. injection H as <-. exact Hi.
  - destruct (keeps_load_model_done same_session same_session_refl same_session_trans
                same_session_trace same_session_gate _ _ _ _ H) as [E1 [E2 [E3 E4]]].
    unfold session_inv in *. rewrite E1, E2, E3, E4. exact Hi.
Qed.

(** Property: across a run of the event loop that does not raise, when
    neither spawning arecord nor creating the temporary file can fail with
    [BlockingIOError] (which the loop swallows), the session invariant is
    kept: while recording there is a temporary file that exists and a
    capture process, while idle there is no process. *)
Theorem run_events_session_inv (evs : list event) (e : env) (w w' : world)
    (Hrun : run_events evs e w = (Ok tt, w')) (Hinv : session_inv w)
    (Hpe : popen_error (ora e) <> Some "BlockingIOError")
    (Hte : tempfile_error (ora e) <> Some "BlockingIOError") :
  session_inv w'.
Proof.
  revert w Hrun Hinv. induction evs as [|ev evs IH]; intros w Hrun Hinv.
  - injection Hrun as <-. exact Hinv.
  - cbn [run_events] in Hrun.
    apply bind_inv in Hrun as [[[] [w1 [H1 H2]]]|[x [_ Hx]]]; [|discriminate Hx].
    apply (IH w1 H2). unfold except_blocking_io in H1.
    destruct (handle_event ev e w) as [[u|x] w0] eqn:E.
    + cbv beta iota in H1. inversion H1. subst w1. destruct u.
      exact (handle_event_inv _ _ _ _ Hinv E).
    + destruct (String.eqb_spec x "BlockingIOError") as [->|_]; [|discriminate H1].
      exfalso. destruct (handle_event_exc _ _ _ _ _ E) as [Hx|[Hx|Hx]];
        [discriminate Hx|exact (Hpe Hx)|exact (Hte Hx)].
Qed.

Lemma mem_false (x : string) (xs : list string) : Py.mem x xs = false -> ~ In x xs.
Proof.
  unfold Py.mem. intros H Hin.
  assert (existsb (String.eqb x) xs = true) as H'
    by (apply existsb_exists; exists x; split; [exact Hin|apply String.eqb_refl]).
  congruence.
Qed.

Lemma update_tray_ok (st : string) (e : env) (w : world) :
  exists t, update_tray st e w = (Ok tt, set_trace t w).
Proof.
  unfold update_tray, bind, asks, emit, modify, ret.
  destruct (HAS_TRAY (cfg e)); [eexists; reflexivity|].
  exists (trace w). destruct w; reflexivity.
Qed.

Lemma notify_ok (ti m i : string) (n : nat) (e : env) (w : world) :
  exists t, notify ti m i n e w = (Ok tt, set_trace t w).
Proof.
  unfold notify, bind, asks, emit, modify, ret.
  destruct (NOTIFICATIONS (cfg e)); [eexists; reflexivity|].
  exists (trace w). destruct w; reflexivity.
Qed.

Lemma load_model_done_loaded (e : env) (w : world) :
  model_gate w = Loaded \/ (model_gate w = Loading /\ load_outcome (ora e) = None) ->
  exists w', load_model_done e w = (Ok tt, w') /\ same_session w w' /\ model_gate w' = Loaded.
Proof.
  intros Hg. unfold load_model_done, bind, get, asks, put, ret.
  destruct Hg as [Hg|[Hg Ho]]; rewrite Hg.
  - exists w. split; [reflexivity|split; [apply same_session_refl|exact Hg]].
  - rewrite Ho. destruct (update_tray_ok "ready" e (set_model_gate Loaded w)) as [t Ht].
    rewrite Ht. eexists. split; [reflexivity|split; [repeat split|reflexivity]].
Qed.

Lemma cleanup_ok (e : env) (w : world) (n : string) :
  temp_file w = Some n ->
  exists w', cleanup e w = (Ok tt, w') /\ same_proc w w' /\ ~ In n (files w').
Proof.
  intro Ht. unfold cleanup, bind at 1, get. rewrite Ht.
  destruct (Py.mem n (files w)) eqn:Hm.
  - unfold bind at 2, put, bind, emit, modify.
    destruct (update_tray_ok "ready" e
                (set_trace
                   (trace (set_files (remove string_dec n (files w)) w) ++ [Unlink n])
                   (set_files (remove string_dec n (files w)) w))) as [t Ht'].
    rewrite Ht'. eexists. split; [reflexivity|split; [split; reflexivity|]].
    apply remove_In.
  - unfold bind, ret. destruct (update_tray_ok "ready" e w) as [t Ht'].
    rewrite Ht'. eexists. split; [reflexivity|split; [split; reflexivity|]].
    exact (mem_false _ _ Hm).
Qed.

(** Property: once the model is (or becomes) available, however the
    release of the hotkey during a recording ends (transcription and
    delivery may raise; their exceptions are caught, and the [finally]
    clause runs in any case), it leaves the temporary file deleted, the
    recording flag cleared and no capture process. *)
Theorem stop_recording_removes_temp_file (e : env) (w : world) (n : string)
    (Hr : recording w = true) (Ht : temp_file w = Some n)
    (Hg : model_gate w = Loaded \/ (model_gate w = Loading /\ load_outcome (ora e) = None))
    (r : res unit) (w' : world) (H : stop_recording e w = (r, w')) :
  recording w' = false /\ record_process w' = None /\ ~ In n (files w').
Proof.
  destruct (stop_recording_clears _ _ _ _ Hr H) as [Hr' Hp'].
  split; [exact Hr'|split; [exact Hp'|]].
  unfold stop_recording in H.
  apply bind_inv in H as [[w0 [w1 [H1 H]]]|[x [H1 _]]]; [|discriminate H1].
  injection H1 as <- <-. rewrite Hr in H. cbn [negb] in H.
  apply bind_inv in H as [[u [w1 [H1 H]]]|[x [H1 _]]]; [|discriminate H1].
  injection H1 as _ <-.
  apply bind_inv in H as [[u' [w2 [H1 H]]]|[x [H1 _]]].
  2:{ destruct (record_process w); unfold bind, emit, modify, ret in H1; discriminate H1. }
  assert (E : temp_file w2 = Some n /\ model_gate w2 = model_gate w).
  { destruct (record_process w).
    - unfold bind, emit, modify in H1. injection H1 as _ <-. split; [exact Ht|reflexivity].
    - injection H1 as _ <-. split; [exact Ht|reflexivity]. }
  clear H1. destruct E as [Ht2 Hg2].
  destruct (update_tray_ok "processing" e w2) as [t2 Ht3].
  apply bind_inv in H as [[u2 [w3 [H1 H]]]|[x [H1 _]]]; rewrite Ht3 in H1;
    [|discriminate H1].
  injection H1 as _ <-.
  rewrite <- Hg2 in Hg.
  destruct (load_model_done_loaded e (set_trace t2 w2) Hg) as [w4 [Hl [[_ [_ [Ht4 _]]] Hg4]]].
  cbn [temp_file set_trace] in Ht4. rewrite Ht2 in Ht4.
  apply bind_inv in H as [[u3 [w5 [H1 H]]]|[x [H1 _]]]; rewrite Hl in H1;
    [|discriminate H1].
  injection H1 as _ <-.
  apply bind_inv in H as [[err [w5 [H1 H]]]|[x [H1 _]]];
    unfold model_error, bind, get, ret in H1; rewrite Hg4 in H1; wred in H1;
    [|discriminate H1].
  injection H1 as <- <-. cbn [truthy_str gate_error] in H.
  unfold try_except_finally in H.
  destruct (transcribe_and_deliver e w4) as [r1 w5] eqn:E1.
  destruct (keeps_transcribe_and_deliver same_session same_session_refl
              same_session_trans same_session_trace _ _ _ _ E1) as [_ [_ [Ht5 _]]].
  assert (Ht6 : exists w6, match r1 with
                           | Ok _ => (Ok tt, w5)
                           | Exc x => notify "Error" (Py.prefix 50 x) "dialog-error" 3000 e w5
                           end = (Ok tt, w6) /\ temp_file w6 = Some n).
  { destruct r1 as [u4|x].
    - exists w5. split; [reflexivity|congruence].
    - destruct (notify_ok "Error" (Py.prefix 50 x) "dialog-error" 3000 e w5) as [t6 Hn].
      rewrite Hn. eexists. split; [reflexivity|]. cbn [temp_file set_trace]. congruence. }
  destruct Ht6 as [w6 [Hh Ht6]]. rewrite Hh in H.
  destruct (cleanup_ok e w6 n Ht6) as [w7 [Hc [_ Hn7]]].
  rewrite Hc in H. injection H as _ <-. exact Hn7.
Qed.

(** Property: the loop reacts only to the configured hotkey: an event of
    another type or code, and an auto-repeat of the hotkey (value 2), leave
    the world as it is. *)
Theorem handle_event_ignores_other_keys (ty code value : nat) (e : env) (w : world)
    (Hother : ty <> EV_KEY \/ code <> HOTKEY_CODE (cfg e) \/ (value <> 0 /\ value <> 1)) :
  handle_event (KeyEvent ty code value) e w = (Ok tt, w).
Proof.
  unfold handle_event, bind, asks, ret. cbn beta iota.
  destruct Hother as [H|[H|[H0 H1]]].
  - apply Nat.eqb_neq in H. rewrite H. reflexivity.
  - apply Nat.eqb_neq in H. rewrite H, andb_false_r. reflexivity.
  - apply Nat.eqb_neq in H0. apply Nat.eqb_neq in H1. rewrite H0, H1.
    destruct ((ty =? EV_KEY) && (code =? HOTKEY_CODE (cfg e))); reflexivity.
Qed.

(** Property: with a forced language, or without a list of allowed
    languages, no detection pass is run: the configured language is used
    and the world is left as it is. *)
Theorem determine_language_no_detection (name : string) (e : env) (w : world)
    (Hmode : truthy_str (LANGUAGE (cfg e)) = true \/ ALLOWED_LANGUAGES (cfg e) = None) :
  determine_language name e w = (Ok (LANGUAGE (cfg e)), w).
Proof.
  unfold determine_language, bind, asks, ret. cbn beta iota.
  destruct Hmode as [H|H].
  - destruct (ALLOWED_LANGUAGES (cfg e)) as [[|first rest]|]; [reflexivity| |reflexivity].
    rewrite H. reflexivity.
  - rewrite H. reflexivity.
Qed.

(** Property: the end of the model load is taken once: it never raises,
    afterwards the gate is never [Loading] again, and a second end changes
    nothing. *)
Theorem load_model_done_once (e : env) (w w' : world) (r : res unit)
    (H : load_model_done e w = (r, w')) :
  r = Ok tt /\ model_gate w' <> Loading /\ load_model_done e w' = (Ok tt, w').
Proof.
  assert (Hfin : model_gate w' <> Loading -> load_model_done e w' = (Ok tt, w')).
  { intro Hg. unfold load_model_done, bind, get, ret.
    destruct (model_gate w'); [congruence|reflexivity|reflexivity]. }
  unfold load_model_done, bind, get, asks, put, ret in H.
  destruct (model_gate w) eqn:Hg.
  - destruct (load_outcome (ora e)) as [err|].
    + injection H as <- <-. split; [reflexivity|split; [discriminate|apply Hfin; discriminate]].
    + destruct (update_tray_ok "ready" e (set_model_gate Loaded w)) as [t Ht].
      rewrite Ht in H. injection H as <- <-.
      split; [reflexivity|split; [discriminate|apply Hfin; discriminate]].
  - injection H as <- <-. split; [reflexivity|split; [congruence|apply Hfin; congruence]].
  - injection H as <- <-. split; [reflexivity|split; [congruence|apply Hfin; congruence]].
Qed.


(** Property: a call of [start_recording] from an idle session with no
    model error that returns normally leaves the recording flag set, a new
    temporary file added to the existing files and recorded as the session's
    file, and a recorded capture process that was spawned as arecord writing
    to exactly that file. *)
Theorem start_recording_fresh (e : env) (w w' : world)
    (Hr : recording w = false) (Hm : truthy_str (gate_error (model_gate w)) = false)
    (H : start_recording e w = (Ok tt, w')) :
  recording w' = true
  /\ exists n pid, temp_file w' = Some n /\ files w' = n :: files w
     /\ record_process w' = Some pid
     /\ In (Spawn (arecord_cmd (AUDIO_DEVICE (cfg e)) n) pid) (trace w').
Proof.
  destruct e as [c o], w as [rec rp tf g fs tr nid].
  cbn [cfg recording model_gate] in *. subst rec.
  split_start H; try discriminate H; try congruence.
  all: injection H as <-; (split; [reflexivity|]); do 2 eexists;
    (split; [reflexivity|]); (split; [reflexivity|]); (split; [reflexivity|]);
    rewrite <- ?app_assoc; apply in_or_app; right; cbn [app In]; tauto.
Qed.

Lemma handle_press (e : env) (w : world) :
  handle_event (press (cfg e)) e w = start_recording e w.
Proof.
  unfold handle_event, press, bind, asks. cbv beta iota.
  rewrite !Nat.eqb_refl. reflexivity.
Qed.

(** When [Popen] of arecord fails on a press from an idle session with no
    model error, [start_recording] raises with the flag set, the capture
    process unchanged and the new temporary file in place. *)
Lemma start_recording_spawn_failure (e : env) (w : world) (x : string)
    (Hrec : recording w = false)
    (Herr : truthy_str (gate_error (model_gate w)) = false)
    (Htmp : tempfile_error (ora e) = None)
    (Hspawn : (program_ok (ora e) "arecord" = false /\ x = "FileNotFoundError")
              \/ (program_ok (ora e) "arecord" = true /\ popen_error (ora e) = Some x)) :
  exists w1, start_recording e w = (Exc x, w1)
    /\ recording w1 = true /\ record_process w1 = record_process w
    /\ exists n, temp_file w1 = Some n /\ In n (files w1).
Proof.
  destruct (start_recording e w) as [r w1] eqn:H. exists w1.
  destruct e as [c o], w as [rec rp tf g fs tr nid].
  cbn [ora recording model_gate record_process] in *. subst rec.
  destruct Hspawn as [[Hp ->]|[Hp Hpe]];
    split_start H; try congruence;
    injection H as <- <-; (split; [congruence|]);
    (split; [reflexivity|]); (split; [reflexivity|]);
    eexists; (split; [reflexivity|left; reflexivity]).
Qed.

(** C3 (as the code does it): when [Popen] of arecord fails on a press
    while idle and without a model error, the press ends in that exception
    with the recording flag still set, no new capture process and the new
    temporary file left in place; the session is neither aborted nor
    returned to idle.  The event loop catches only [BlockingIOError] (a
    failed [fork]): it then goes on with the next events from that state;
    any other exception, such as the [FileNotFoundError] of a missing
    arecord, leaves [run], which [main] does not catch. *)
Theorem C3_spawn_failure_not_session_local (e : env) (w : world) (evs : list event)
    (x : string)
    (Hrec : recording w = false)
    (Herr : truthy_str (gate_error (model_gate w)) = false)
    (Htmp : tempfile_error (ora e) = None)
    (Hspawn : (program_ok (ora e) "arecord" = false /\ x = "FileNotFoundError")
              \/ (program_ok (ora e) "arecord" = true /\ popen_error (ora e) = Some x)) :
  exists w1,
    handle_event (press (cfg e)) e w = (Exc x, w1)
    /\ recording w1 = true
    /\ record_process w1 = record_process w
    /\ (exists n, temp_file w1 = Some n /\ In n (files w1))
    /\ run_events (press (cfg e) :: evs) e w
       = (if String.eqb x "BlockingIOError" then run_events evs e w1 else (Exc x, w1)).
Proof.
  destruct (start_recording_spawn_failure e w x Hrec Herr Htmp Hspawn)
    as [w1 [H [H1 [H2 H3]]]].
  exists w1. rewrite handle_press.
  split; [exact H|]. split; [exact H1|]. split; [exact H2|]. split; [exact H3|].
  cbn [run_events]. unfold bind, except_blocking_io. rewrite handle_press, H.
  destruct (String.eqb x "BlockingIOError"); reflexivity.
Qed.

Lemma check_dependencies_ok (c : config) (which : string -> bool) :
  check_dependencies c which = Ok tt ->
  which "arecord" = true
  /\ which (if IS_WAYLAND c then "wl-copy" else "xclip") = true
  /\ (AUTO_TYPE c = true -> which (if IS_WAYLAND c then "ydotool" else "xdotool") = true).
Proof.
  unfold check_dependencies, missing_dependencies.
  destruct (which "arecord"), (IS_WAYLAND c), (AUTO_TYPE c);
    destruct (which "wl-copy"), (which "xclip"), (which "ydotool"), (which "xdotool");
    cbn [app]; intro H; try discriminate H; repeat split; intro; discriminate.
Qed.

(** Property: a check passes exactly when arecord, the clipboard tool of the
    session type, and (with auto-typing) its keystroke tool are all found. *)
Theorem check_dependencies_iff (c : config) (which : string -> bool) :
  check_dependencies c which = Ok tt <->
  which "arecord" = true
  /\ which (if IS_WAYLAND c then "wl-copy" else "xclip") = true
  /\ (AUTO_TYPE c = true -> which (if IS_WAYLAND c then "ydotool" else "xdotool") = true).
Proof.
  split; [apply check_dependencies_ok|].
  intros [Har [Hclip Htype]].
  unfold check_dependencies, missing_dependencies. rewrite Har.
  destruct (IS_WAYLAND c), (AUTO_TYPE c); rewrite Hclip; cbn [app];
    try rewrite (Htype eq_refl); reflexivity.
Qed.



(** Property: the language given to the real pass is the configured one,
    or else one of the allowed languages: a detected language outside the
    list is never used. *)
Theorem determine_language_allowed (name : string) (e : env) (w w' : world)
    (lang : option string) (H : determine_language name e w = (Ok lang, w')) :
  lang = LANGUAGE (cfg e)
  \/ exists allowed l, ALLOWED_LANGUAGES (cfg e) = Some allowed /\ lang = Some l /\ In l allowed.
Proof.
  unfold determine_language in H.
  apply bind_inv in H as [[c [w1 [H1 H]]]|[x [H1 _]]]; [|discriminate H1].
  injection H1 as <- <-.
  destruct (ALLOWED_LANGUAGES (cfg e)) as [[|first rest]|] eqn:Hal;
    [injection H as <- _; left; reflexivity| |injection H as <- _; left; reflexivity].
  destruct (truthy_str (LANGUAGE (cfg e))); [injection H as <- _; left; reflexivity|].
  apply bind_inv in H as [[r [w2 [_ H]]]|[x [_ Hx]]]; [|discriminate Hx].
  right. exists (first :: rest).
  destruct (Py.mem (snd r) (first :: rest)) eqn:Hm; injection H as <- _.
  - exists (snd r). split; [reflexivity|split; [reflexivity|]].
    unfold Py.mem in Hm. apply existsb_exists in Hm as [x [Hin Hx]].
    apply String.eqb_eq in Hx. subst x. exact Hin.
  - exists first. split; [reflexivity|split; [reflexivity|left; reflexivity]].
Qed.

Lemma lower_empty (s : string) : Py.lower s = "" <-> s = "".
Proof. destruct s; cbn; split; congruence. Qed.

(** Property: the terminal classification of the focused window ignores the
    case of its class name. *)
Theorem get_paste_keys_for_window_case_insensitive (args : list string) (wc : string) :
  get_paste_keys_for_window args (Some (Py.lower wc)) = get_paste_keys_for_window args (Some wc).
Proof.
  unfold get_paste_keys_for_window. rewrite lower_idem.
  destruct (String.eqb_spec wc "") as [->|Hne]; [reflexivity|].
  destruct (String.eqb_spec (Py.lower wc) "") as [He|_].
  - exfalso. apply Hne. apply lower_empty. exact He.
  - reflexivity.
Qed.

(** *** Witnesses of the properties *)

Lemma parse_language_config_modes_witness :
  (count_char "," " EN , it" = 0 ->
     parse_language_config " EN , it"
     = (Some (Py.strip (Py.lower (Py.strip " EN , it"))), None))
  /\ (0 < count_char "," " EN , it" ->
      exists parts, parse_language_config " EN , it" = (None, Some parts)
        /\ length parts = S (count_char "," " EN , it")).
Proof.
  apply parse_language_config_modes. intro H. vm_compute in H. discriminate H.
Defined.

Lemma run_events_session_inv_witness :
  session_inv (snd (run_events [ModelLoadFinished; press (cfg quiet_env)] quiet_env init_world)).
Proof.
  apply (run_events_session_inv [ModelLoadFinished; press (cfg quiet_env)] quiet_env init_world).
  - vm_compute. reflexivity.
  - split; intro H; [discriminate H|reflexivity].
  - discriminate.
  - discriminate.
Defined.

Lemma stop_recording_removes_temp_file_witness :
  recording (snd (stop_recording quiet_env session_world)) = false
  /\ record_process (snd (stop_recording quiet_env session_world)) = None
  /\ ~ In "/tmp/tmp0.wav" (files (snd (stop_recording quiet_env session_world))).
Proof.
  apply (stop_recording_removes_temp_file quiet_env session_world "/tmp/tmp0.wav"
           eq_refl eq_refl (or_introl eq_refl)
           (fst (stop_recording quiet_env session_world))).
  vm_compute. reflexivity.
Defined.

Lemma handle_event_ignores_other_keys_witness :
  handle_event (KeyEvent EV_KEY (HOTKEY_CODE (cfg demo_env)) 2) demo_env session_world
  = (Ok tt, session_world).
Proof.
  apply handle_event_ignores_other_keys. right. right. split; discriminate.
Defined.

Lemma determine_language_no_detection_witness :
  let e := mkEnv (config_with_language "de") demo_oracle in
  determine_language "/tmp/tmp0.wav" e session_world = (Ok (LANGUAGE (cfg e)), session_world).
Proof.
  apply determine_language_no_detection. left. vm_compute. reflexivity.
Defined.

Lemma load_model_done_once_witness :
  let '(r, w') := load_model_done quiet_env init_world in
  r = Ok tt /\ model_gate w' <> Loading /\ load_model_done quiet_env w' = (Ok tt, w').
Proof.
  apply (load_model_done_once quiet_env init_world
           (snd (load_model_done quiet_env init_world))
           (fst (load_model_done quiet_env init_world))).
  vm_compute. reflexivity.
Defined.



Lemma determine_language_allowed_witness :
  let e := mkEnv (config_with_language "en,it")
                 (oracle_with all_programs None [] "fr" None) in
  Some "en" = LANGUAGE (cfg e)
  \/ exists allowed l, ALLOWED_LANGUAGES (cfg e) = Some allowed /\ Some "en" = Some l
                       /\ In l allowed.
Proof.
  apply (determine_language_allowed "/tmp/tmp0.wav" _ session_world
           (snd (determine_language "/tmp/tmp0.wav"
                   (mkEnv (config_with_language "en,it")
                          (oracle_with all_programs None [] "fr" None))
                   session_world))).
  vm_compute. reflexivity.
Defined.

Lemma start_recording_fresh_witness :
  recording (snd (start_recording quiet_env init_world)) = true
  /\ exists n pid,
       temp_file (snd (start_recording quiet_env init_world)) = Some n
       /\ files (snd (start_recording quiet_env init_world)) = n :: files init_world
       /\ record_process (snd (start_recording quiet_env init_world)) = Some pid
       /\ In (Spawn (arecord_cmd (AUDIO_DEVICE (cfg quiet_env)) n) pid)
             (trace (snd (start_recording quiet_env init_world))).
Proof.
  apply (start_recording_fresh quiet_env init_world (snd (start_recording quiet_env init_world))).
  - reflexivity.
  - reflexivity.
  - vm_compute. reflexivity.
Defined.

(** A failed [fork] of arecord on a press: the loop swallows the
    [BlockingIOError] and handles the release with the flag still set. *)
Lemma C3_spawn_failure_not_session_local_witness :
  exists w1,
    handle_event (press (cfg eagain_env)) eagain_env init_world = (Exc "BlockingIOError", w1)
    /\ recording w1 = true
    /\ record_process w1 = record_process init_world
    /\ (exists n, temp_file w1 = Some n /\ In n (files w1))
    /\ run_events [press (cfg eagain_env); release (cfg eagain_env)] eagain_env init_world
       = (if String.eqb "BlockingIOError" "BlockingIOError"
          then run_events [release (cfg eagain_env)] eagain_env w1
          else (Exc "BlockingIOError", w1)).
Proof.
  apply (C3_spawn_failure_not_session_local eagain_env init_world
           [release (cfg eagain_env)] "BlockingIOError").
  - reflexivity.
  - reflexivity.
  - reflexivity.
  - right. split; reflexivity.
Defined.

Lemma press_ignored_on_model_error_witness :
  handle_event (press (cfg demo_env)) demo_env failed_load_world
  = (Ok tt, failed_load_world).
Proof.
  apply (press_ignored_on_model_error demo_env failed_load_world "CUDA out of memory").
  - reflexivity.
  - discriminate.
Defined.
